(** * dev/init_db.py: the database bootstrap script

    A shallow embedding of [src/dev/init_db.py].  The script talks to two
    things it does not define: the Python import system and the psycopg2
    driver (and, through it, a PostgreSQL server).  Every such call is a
    node of a finite program tree; a handler gives the calls a meaning.
    Theorems about control flow quantify over every handler, theorems about
    the database quantify over handlers that honour the two SQL statements,
    and a small reference server shows that such handlers exist. *)

From Stdlib Require Import String Ascii List ZArith Bool Lia DecimalString.
Import ListNotations.
Local Open Scope string_scope.
Local Open Scope list_scope.

Set Implicit Arguments.

(** ** Python values and exceptions *)

Module Py.

(** The values the script handles: [None], a result row (a tuple of
    integers) and opaque driver objects (connection, cursor). *)
Inductive pyval : Type :=
| PNone
| PTuple (items : list Z)
| PObject (id : nat).

(** Truth value testing, as [if not exists:] applies it. *)
Definition truthy (v : pyval) : bool :=
  match v with
  | PNone => false
  | PTuple items => negb (Nat.eqb (List.length items) 0)
  | PObject _ => true
  end.

(** The exceptions that matter to the script.  [ImportError] stands for
    the class and its subclass [ModuleNotFoundError]; [Psycopg2Error] for
    [psycopg2.Error] and its subclasses.  [SystemExit] derives from
    [BaseException] only. *)
Inductive exn : Type :=
| ImportError (msg : string)
| Psycopg2Error (msg : string)
| SystemExit (code : Z).

(** [isinstance(e, Exception)] *)
Definition is_Exception (e : exn) : bool :=
  match e with
  | SystemExit _ => false
  | _ => true
  end.

(** [isinstance(e, ImportError)] *)
Definition is_ImportError (e : exn) : bool :=
  match e with
  | ImportError _ => true
  | _ => false
  end.

(** [str(e)], what an f-string prints for [{e}]. *)
Definition str (e : exn) : string :=
  match e with
  | ImportError msg => msg
  | Psycopg2Error msg => msg
  | SystemExit code => NilZero.string_of_int (Z.to_int code)
  end.

(** A call either returns a value or raises. *)
Inductive result : Type :=
| Ok (v : pyval)
| Err (e : exn).

Definition is_ok (r : result) : bool :=
  match r with Ok _ => true | Err _ => false end.

End Py.
Import Py.

(** ** Calls that leave the script *)

(** One constructor per external call the script makes: the module level
    imports and the psycopg2 methods, each with its receiver and
    arguments. *)
Inductive op : Type :=
| Import (module : string)
| Connect (dbname user password host port : string)
| SetIsolationLevel (conn : pyval) (level : Z)
| Cursor (conn : pyval)
| Execute (cur : pyval) (sql : string)
| Fetchone (cur : pyval)
| CursorClose (cur : pyval)
| ConnClose (conn : pyval).

(** ** Program trees *)

(** A finite tree of calls.  [Try] is a [try: ... except ...:] block: the
    body, the test the [except] clause applies to a raised exception, the
    handler, and the code after the block. *)
Inductive prog (A : Type) : Type :=
| Ret (a : A)
| Raise (e : exn)
| PrintLine (line : string) (k : prog A)
| Call (o : op) (k : pyval -> prog A)
| Try (X : Type) (body : prog X) (catches : exn -> bool)
      (handler : exn -> prog X) (k : X -> prog A).

Arguments Ret {A} a.
Arguments Raise {A} e.
Arguments PrintLine {A} line k.
Arguments Call {A} o k.
Arguments Try {A X} body catches handler k.

Fixpoint bind {A B : Type} (p : prog A) (f : A -> prog B) : prog B :=
  match p with
  | Ret a => f a
  | Raise e => Raise e
  | PrintLine line k => PrintLine line (bind k f)
  | Call o k => Call o (fun v => bind (k v) f)
  | Try body catches handler k =>
      Try body catches handler (fun x => bind (k x) f)
  end.

Definition call (o : op) : prog pyval := Call o (fun v => Ret v).
Definition print (line : string) : prog unit := PrintLine line (Ret tt).
Definition try_except {X : Type} (body : prog X) (catches : exn -> bool)
    (handler : exn -> prog X) : prog X :=
  Try body catches handler (fun x => Ret x).

(** [sys.exit(code)] raises [SystemExit]. *)
Definition sys_exit {A : Type} (code : Z) : prog A := Raise (SystemExit code).

Declare Scope prog_scope.
Delimit Scope prog_scope with prog.
Notation "x <- p ;; q" := (bind p (fun x => q))
  (at level 61, p at next level, right associativity) : prog_scope.
Notation "p ;; q" := (bind p (fun _ => q))
  (at level 61, right associativity) : prog_scope.
Local Open Scope prog_scope.

(** ** The script *)

Definition DB_HOST : string := "localhost".
Definition DB_PORT : string := "5432".
Definition DB_USER : string := "postgres".
Definition DB_PASSWORD : string := "password".
Definition TARGET_DB : string := "idem_test".

(** [psycopg2.extensions.ISOLATION_LEVEL_AUTOCOMMIT], which the driver
    defines as 0. *)
Definition ISOLATION_LEVEL_AUTOCOMMIT : Z := 0.

(** The two statements, as the f-strings build them. *)
Definition select_sql : string :=
  "SELECT 1 FROM pg_catalog.pg_database WHERE datname = '" ++ TARGET_DB ++ "'".
Definition create_sql : string := "CREATE DATABASE " ++ TARGET_DB.

(** The lines the script prints. *)
Definition msg_connecting : string :=
  "Connecting to PostgreSQL at " ++ DB_HOST ++ ":" ++ DB_PORT ++ "...".
Definition msg_error_connecting (e : exn) : string :=
  "Error connecting to Postgres: " ++ str e.
Definition msg_tip : string :=
  "Tip: Ensure docker container is running (docker-compose up -d)".
Definition msg_creating : string :=
  "Database '" ++ TARGET_DB ++ "' does not exist. Creating...".
Definition msg_created : string :=
  "Database '" ++ TARGET_DB ++ "' created successfully.".
Definition msg_exists : string :=
  "Database '" ++ TARGET_DB ++ "' already exists.".
Definition msg_done : string := "Done.".
Definition msg_not_found : string := "Error: 'psycopg2' module not found.".
Definition msg_install : string :=
  "Please install it using: pip install psycopg2-binary".

(** The call [psycopg2.connect(dbname="postgres", ...)]. *)
Definition connect_op : op :=
  Connect "postgres" DB_USER DB_PASSWORD DB_HOST DB_PORT.

(** [def init_db():] *)
Definition init_db : prog unit :=
  print msg_connecting ;;
  cc <- try_except
          (conn <- call connect_op ;;
           call (SetIsolationLevel conn ISOLATION_LEVEL_AUTOCOMMIT) ;;
           cur <- call (Cursor conn) ;;
           Ret (conn, cur))
          is_Exception
          (fun e =>
             print (msg_error_connecting e) ;;
             print msg_tip ;;
             sys_exit 1) ;;
  let conn := fst cc in
  let cur := snd cc in
  call (Execute cur select_sql) ;;
  exists_ <- call (Fetchone cur) ;;
  (if negb (truthy exists_) then
     print msg_creating ;;
     call (Execute cur create_sql) ;;
     print msg_created
   else
     print msg_exists) ;;
  call (CursorClose cur) ;;
  call (ConnClose conn) ;;
  print msg_done.

(** [if __name__ == "__main__":] *)
Definition main : prog unit :=
  try_except init_db is_ImportError
    (fun _ => print msg_not_found ;; print msg_install).

(** The whole module, run as a script: the four import statements, then
    the main block.  (The assignments of the constants and the [def] cannot
    raise.) *)
Definition script : prog unit :=
  call (Import "psycopg2") ;;
  call (Import "psycopg2.extensions") ;;
  call (Import "sys") ;;
  call (Import "time") ;;
  main.

(** ** Running a program against a handler *)

(** How a program ends. *)
Inductive outcome (A : Type) : Type :=
| Returned (a : A)
| Raised (e : exn).
Arguments Returned {A} a.
Arguments Raised {A} e.

(** What a run leaves behind: how it ended, the world afterwards, the
    lines written to standard output, and every external call with the
    answer it got, in order. *)
Record run_result (W A : Type) : Type := mkRun {
  outcome_of : outcome A;
  final : W;
  stdout : list string;
  log : list (op * result)
}.

Section Run.
Variable W : Type.
Variable h : op -> W -> result * W.

Fixpoint run {A : Type} (p : prog A) (w : W) : run_result W A :=
  match p with
  | Ret a => mkRun (Returned a) w [] []
  | Raise e => mkRun (Raised e) w [] []
  | PrintLine line k =>
      match run k w with
      | mkRun o w' out lg => mkRun o w' (line :: out) lg
      end
  | Call o k =>
      match h o w with
      | (Ok v, w1) =>
          match run (k v) w1 with
          | mkRun oc w' out lg => mkRun oc w' out ((o, Ok v) :: lg)
          end
      | (Err e, w1) => mkRun (Raised e) w1 [] [(o, Err e)]
      end
  | Try body catches handler k =>
      match run body w with
      | mkRun (Returned x) wb outb lgb =>
          match run (k x) wb with
          | mkRun oc w' out lg => mkRun oc w' (outb ++ out) (lgb ++ lg)
          end
      | mkRun (Raised e) wb outb lgb =>
          if catches e then
            match run (handler e) wb with
            | mkRun (Returned x) wh outh lgh =>
                match run (k x) wh with
                | mkRun oc w' out lg =>
                    mkRun oc w' (outb ++ outh ++ out) (lgb ++ lgh ++ lg)
                end
            | mkRun (Raised e') wh outh lgh =>
                mkRun (Raised e') wh (outb ++ outh) (lgb ++ lgh)
            end
          else mkRun (Raised e) wb outb lgb
      end
  end.
End Run.

(** The status the interpreter hands to the operating system: 0 when the
    module runs to its end, the argument of [sys.exit], and 1 after any
    other exception reaches the top level. *)
Definition exit_status {A : Type} (o : outcome A) : Z :=
  match o with
  | Returned _ => 0
  | Raised (SystemExit code) => code
  | Raised _ => 1
  end.

(** ** A reference server *)

(** A small PostgreSQL behind psycopg2, enough to answer the calls of the
    script: which logins it accepts, which databases its catalog lists,
    whether the login may create databases, and the state of the one
    client session. *)
Module Pg.

Fixpoint strip_prefix (p s : string) : option string :=
  match p, s with
  | EmptyString, _ => Some s
  | String a p', String b s' =>
      if Ascii.eqb a b then strip_prefix p' s' else None
  | String _ _, EmptyString => None
  end.

(** [strip_quote (name ++ "'") = Some name] *)
Fixpoint strip_quote (s : string) : option string :=
  match s with
  | EmptyString => None
  | String c EmptyString => if Ascii.eqb c "'" then Some EmptyString else None
  | String c s' => option_map (String c) (strip_quote s')
  end.

Inductive statement : Type :=
| SelectExists (name : string)
| CreateDatabase (name : string)
| Unparsed.

Definition parse (sql : string) : statement :=
  match strip_prefix "CREATE DATABASE " sql with
  | Some name => CreateDatabase name
  | None =>
      match strip_prefix
              "SELECT 1 FROM pg_catalog.pg_database WHERE datname = '" sql with
      | Some rest =>
          match strip_quote rest with
          | Some name => SelectExists name
          | None => Unparsed
          end
      | None => Unparsed
      end
  end.

Record session : Type := mkSession {
  conn_open : bool;
  autocommit : bool;
  cursor_open : bool;
  pending : option (list (list Z))
}.

(** [listening]: a server accepts connections at [DB_HOST]:[DB_PORT], the
    only address of this model; [databases]: the names its catalog lists,
    the database a client connects to among them. *)
Record world : Type := mkWorld {
  driver_installed : bool;
  listening : bool;
  superuser : string;
  superuser_password : string;
  createdb : bool;
  databases : list string;
  sess : option session
}.

Definition has_db (w : world) (name : string) : bool :=
  existsb (String.eqb name) (databases w).

Definition with_sess (w : world) (s : option session) : world :=
  mkWorld (driver_installed w) (listening w) (superuser w)
          (superuser_password w) (createdb w) (databases w) s.

Definition with_databases (w : world) (dbs : list string) : world :=
  mkWorld (driver_installed w) (listening w) (superuser w)
          (superuser_password w) (createdb w) dbs (sess w).

Definition the_conn : pyval := PObject 1.
Definition the_cursor : pyval := PObject 2.

Definition is_conn (v : pyval) : bool :=
  match v with PObject 1 => true | _ => false end.
Definition is_cursor (v : pyval) : bool :=
  match v with PObject 2 => true | _ => false end.

Definition needs_driver (module : string) : bool :=
  String.eqb module "psycopg2" || String.eqb module "psycopg2.extensions".

(** The session behind a live connection object. *)
Definition live_conn (w : world) (c : pyval) : option session :=
  match sess w with
  | Some s => if is_conn c && conn_open s then Some s else None
  | None => None
  end.

(** The session behind a live cursor object. *)
Definition live_cursor (w : world) (c : pyval) : option session :=
  match sess w with
  | Some s =>
      if is_cursor c && conn_open s && cursor_open s then Some s else None
  | None => None
  end.

Definition execute (w : world) (s : session) (sql : string) : result * world :=
  match parse sql with
  | SelectExists name =>
      let rows := if has_db w name then [[1%Z]] else [] in
      (Ok PNone,
       with_sess w (Some (mkSession (conn_open s) (autocommit s)
                                    (cursor_open s) (Some rows))))
  | CreateDatabase name =>
      if negb (autocommit s) then
        (Err (Psycopg2Error
                "CREATE DATABASE cannot run inside a transaction block"), w)
      else if negb (createdb w) then
        (Err (Psycopg2Error "permission denied to create database"), w)
      else if has_db w name then
        (Err (Psycopg2Error ("database " ++ name ++ " already exists")), w)
      else
        (Ok PNone,
         with_databases
           (with_sess w (Some (mkSession (conn_open s) (autocommit s)
                                         (cursor_open s) None)))
           (databases w ++ [name]))
  | Unparsed => (Err (Psycopg2Error "syntax error"), w)
  end.

Definition handle (o : op) (w : world) : result * world :=
  match o with
  | Import module =>
      if needs_driver module && negb (driver_installed w)
      then (Err (ImportError "No module named 'psycopg2'"), w)
      else (Ok PNone, w)
  | Connect dbname user password host port =>
      if negb (listening w && String.eqb host DB_HOST
               && String.eqb port DB_PORT) then
        (Err (Psycopg2Error "connection to server failed"), w)
      else if negb (String.eqb user (superuser w)
                    && String.eqb password (superuser_password w)) then
        (Err (Psycopg2Error "password authentication failed"), w)
      else if negb (has_db w dbname) then
        (Err (Psycopg2Error ("database " ++ dbname ++ " does not exist")), w)
      else
        (Ok the_conn,
         with_sess w (Some (mkSession true false false None)))
  | SetIsolationLevel c level =>
      match live_conn w c with
      | Some s =>
          (Ok PNone,
           with_sess w (Some (mkSession (conn_open s)
                                        (Z.eqb level ISOLATION_LEVEL_AUTOCOMMIT)
                                        (cursor_open s) (pending s))))
      | None => (Err (Psycopg2Error "connection already closed"), w)
      end
  | Cursor c =>
      match live_conn w c with
      | Some s =>
          (Ok the_cursor,
           with_sess w (Some (mkSession (conn_open s) (autocommit s)
                                        true (pending s))))
      | None => (Err (Psycopg2Error "connection already closed"), w)
      end
  | Execute c sql =>
      match live_cursor w c with
      | Some s => execute w s sql
      | None => (Err (Psycopg2Error "cursor already closed"), w)
      end
  | Fetchone c =>
      match live_cursor w c with
      | Some s =>
          match pending s with
          | None => (Err (Psycopg2Error "no results to fetch"), w)
          | Some [] => (Ok PNone, w)
          | Some (row :: rows) =>
              (Ok (PTuple row),
               with_sess w (Some (mkSession (conn_open s) (autocommit s)
                                            (cursor_open s) (Some rows))))
          end
      | None => (Err (Psycopg2Error "cursor already closed"), w)
      end
  | CursorClose c =>
      match sess w with
      | Some s =>
          if is_cursor c then
            (Ok PNone,
             with_sess w (Some (mkSession (conn_open s) (autocommit s)
                                          false (pending s))))
          else (Ok PNone, w)
      | None => (Ok PNone, w)
      end
  | ConnClose c =>
      match sess w with
      | Some s =>
          if is_conn c then
            (Ok PNone,
             with_sess w (Some (mkSession false (autocommit s)
                                          false (pending s))))
          else (Ok PNone, w)
      | None => (Ok PNone, w)
      end
  end.

(** A server that is up, accepts the login of the script and lets it
    create databases; the driver is installed; no session is open. *)
Definition server (dbs : list string) : world :=
  mkWorld true true DB_USER DB_PASSWORD true dbs None.

Definition fresh : world := server ["postgres"; "template0"; "template1"].

End Pg.

(** ** Logs *)

(** The answers a run received and the calls it made. *)
Definition responses (l : list (op * result)) : list result := map snd l.
Definition calls (l : list (op * result)) : list op := map fst l.

(** [each_after P pre l]: every element of [l] satisfies [P] together with
    the elements before it ([pre] followed by the part of [l] already
    passed). *)
Fixpoint each_after {A : Type} (P : list A -> A -> Prop) (pre l : list A)
  : Prop :=
  match l with
  | [] => True
  | x :: l' => P pre x /\ each_after P (pre ++ [x]) l'
  end.

(** ** Vocabulary for the logs *)

(** The calls of the [try] block that opens the connection. *)
Definition connect_phase (o : op) : bool :=
  match o with
  | Connect _ _ _ _ _ | SetIsolationLevel _ _ | Cursor _ => true
  | _ => false
  end.

(** The calls made after the [try] block: the check/create step and the
    two [close] calls. *)
Definition later_phase (o : op) : bool :=
  match o with
  | Execute _ _ | Fetchone _ | CursorClose _ | ConnClose _ => true
  | _ => false
  end.

(** The calls of the check/create step together with the cursor close. *)
Definition before_conn_close (o : op) : bool :=
  match o with
  | Execute _ _ | Fetchone _ | CursorClose _ => true
  | _ => false
  end.

Definition is_statement (o : op) : bool :=
  match o with
  | Execute _ _ => true
  | _ => false
  end.

(** A statement that creates something. *)
Definition creation_statement (sql : string) : bool :=
  String.prefix "CREATE " sql.

Definition is_creation (x : op * result) : bool :=
  match fst x with
  | Execute _ sql => creation_statement sql
  | _ => false
  end.

(** How many creation statements a run sent. *)
Definition creations (l : list (op * result)) : nat :=
  List.length (filter is_creation l).

(** How many times a run sent the statement [sql]. *)
Definition sent (sql : string) (l : list (op * result)) : nat :=
  List.length
    (filter (fun x => match fst x with
                      | Execute _ s => String.eqb s sql
                      | _ => false
                      end) l).

(** Every call of the log returned. *)
Definition all_returned (l : list (op * result)) : bool :=
  forallb (fun x => is_ok (snd x)) l.

(** Every call of the log that [select] picks returned. *)
Definition returned_where (select : op -> bool) (l : list (op * result))
  : bool :=
  forallb (fun x => negb (select (fst x)) || is_ok (snd x)) l.

(** A result row: a tuple with at least one column. *)
Definition is_row (v : pyval) : Prop :=
  match v with
  | PTuple (_ :: _) => True
  | _ => False
  end.

(** ** Handlers that honour the two statements *)

(** What the script assumes of the server behind the driver, in terms of
    an observation [has_db] of its catalog: the existence query answers
    with a row exactly when the target is listed, a creation statement that
    returns has listed the target, and nothing else touches the catalog. *)
Record honours (W : Type) (h : op -> W -> result * W)
       (has_db : W -> string -> bool) : Prop := mkHonours {
  hon_other :
    forall o w r w', h o w = (r, w') -> is_statement o = false ->
                     forall n, has_db w' n = has_db w n;
  hon_select_frame :
    forall cur w r w', h (Execute cur select_sql) w = (r, w') ->
                       forall n, has_db w' n = has_db w n;
  hon_select :
    forall cur w v w1 r w2,
      h (Execute cur select_sql) w = (Ok v, w1) ->
      h (Fetchone cur) w1 = (Ok r, w2) ->
      if has_db w TARGET_DB then is_row r else r = PNone;
  hon_create :
    forall cur w v w', h (Execute cur create_sql) w = (Ok v, w') ->
                       has_db w' TARGET_DB = true;
  hon_create_frame :
    forall cur w r w', h (Execute cur create_sql) w = (r, w') ->
                       forall n, n <> TARGET_DB -> has_db w' n = has_db w n
}.

(** ** Runs against the reference server: vocabulary *)

(** The driver is installed, the server is up, has its maintenance
    database, accepts the login of the script and lets it create
    databases. *)
Definition ready (w : Pg.world) : Prop :=
  Pg.driver_installed w = true /\
  Pg.listening w = true /\
  Pg.superuser w = DB_USER /\
  Pg.superuser_password w = DB_PASSWORD /\
  Pg.createdb w = true /\
  Pg.has_db w "postgres" = true.

(** A ready server that does not have the target database yet. *)
Definition fresh_server (w : Pg.world) : Prop :=
  ready w /\ Pg.has_db w TARGET_DB = false.

(** What a run against a ready server looks like: the calls up to the
    fetch, then either the creation or nothing, then the two closes. *)
Definition log_opening : list (op * result) :=
  [(Import "psycopg2", Ok PNone);
   (Import "psycopg2.extensions", Ok PNone);
   (Import "sys", Ok PNone);
   (Import "time", Ok PNone);
   (connect_op, Ok Pg.the_conn);
   (SetIsolationLevel Pg.the_conn ISOLATION_LEVEL_AUTOCOMMIT, Ok PNone);
   (Cursor Pg.the_conn, Ok Pg.the_cursor);
   (Execute Pg.the_cursor select_sql, Ok PNone)].

Definition log_closing : list (op * result) :=
  [(CursorClose Pg.the_cursor, Ok PNone); (ConnClose Pg.the_conn, Ok PNone)].

Definition log_created : list (op * result) :=
  log_opening
    ++ [(Fetchone Pg.the_cursor, Ok PNone);
        (Execute Pg.the_cursor create_sql, Ok PNone)]
    ++ log_closing.

Definition log_existing : list (op * result) :=
  log_opening ++ [(Fetchone Pg.the_cursor, Ok (PTuple [1%Z]))] ++ log_closing.

(** The session a finished run leaves behind: closed, in autocommit mode,
    with whatever result set was still pending. *)
Definition closed_session (pending : option (list (list Z))) : Pg.session :=
  Pg.mkSession false true false pending.

(** What the reference server keeps apart from its catalog and the
    session. *)
Definition same_settings (w w' : Pg.world) : Prop :=
  Pg.driver_installed w' = Pg.driver_installed w /\
  Pg.listening w' = Pg.listening w /\
  Pg.superuser w' = Pg.superuser w /\
  Pg.superuser_password w' = Pg.superuser_password w /\
  Pg.createdb w' = Pg.createdb w.

(** ** Particular servers *)

(** The driver is not installed. *)
Definition no_driver : Pg.world :=
  Pg.mkWorld false true DB_USER DB_PASSWORD true ["postgres"] None.

(** Nothing listens on the port. *)
Definition server_down : Pg.world :=
  Pg.mkWorld true false DB_USER DB_PASSWORD true ["postgres"] None.

(** The login works but may not create databases. *)
Definition no_privilege : Pg.world :=
  Pg.mkWorld true true DB_USER DB_PASSWORD false ["postgres"] None.

(** The target is already there. *)
Definition provisioned : Pg.world := Pg.server ["postgres"; TARGET_DB].

Definition is_close (o : op) : bool :=
  match o with
  | CursorClose _ | ConnClose _ => true
  | _ => false
  end.

(** ** The order of the calls *)

(** The calls of a complete run, in the order of the source: the imports,
    the three calls of the [try] block on the connection [conn], the
    existence query and the fetch on the cursor [cur], the creation
    statement when [creates], and the two [close] calls. *)
Definition protocol (conn cur : pyval) (creates : bool) : list op :=
  [Import "psycopg2"; Import "psycopg2.extensions"; Import "sys";
   Import "time";
   connect_op;
   SetIsolationLevel conn ISOLATION_LEVEL_AUTOCOMMIT;
   Cursor conn;
   Execute cur select_sql;
   Fetchone cur]
    ++ (if creates then [Execute cur create_sql] else [])
    ++ [CursorClose cur; ConnClose conn].

(** Whatever the environment raised in this log was an [Exception]. *)
Definition only_exceptions (l : list (op * result)) : bool :=
  forallb (fun x => match snd x with
                    | Ok _ => true
                    | Err e => is_Exception e
                    end) l.

(** A driver that imports one of its parts only when the first statement
    is executed, and fails to find it; otherwise the reference server. *)
Definition late_import_failure (o : op) (w : Pg.world) : result * Pg.world :=
  match o with
  | Execute _ _ => (Err (ImportError "No module named 'psycopg2._psycopg'"), w)
  | _ => Pg.handle o w
  end.

(** ** What the script observes of an answer *)

(** Of an answer the script can only tell: that the call raised, and
    what; for [connect] and [cursor], the object returned; for [fetchone],
    the truth value of what was returned; for any other call, that it
    returned. *)
Inductive observation : Type :=
| Raises (e : exn)
| ReturnsObject (v : pyval)
| ReturnsTruth (b : bool)
| Returns.

Definition observe (x : op * result) : observation :=
  match snd x with
  | Err e => Raises e
  | Ok v =>
      match fst x with
      | Connect _ _ _ _ _ | Cursor _ => ReturnsObject v
      | Fetchone _ => ReturnsTruth (truthy v)
      | _ => Returns
      end
  end.

Definition observations (l : list (op * result)) : list observation :=
  map observe l.

(** A handler that answers from a list of observations, one per call,
    with the plainest answer that is observed that way. *)
Definition replay (o : op) (obs : list observation)
  : result * list observation :=
  match obs with
  | [] => (Err (Psycopg2Error "no answer left"), [])
  | Raises e :: rest => (Err e, rest)
  | ReturnsObject v :: rest => (Ok v, rest)
  | ReturnsTruth b :: rest => (Ok (if b then PTuple [1%Z] else PNone), rest)
  | Returns :: rest => (Ok PNone, rest)
  end.

(** * Lemmas and theorems *)

(** ** General facts about runs *)

Lemma each_after_split {A : Type} (P : list A -> A -> Prop) :
  forall l pre0, each_after P pre0 l ->
  forall pre x post, l = pre ++ x :: post -> P (pre0 ++ pre) x.
Proof.
  induction l as [| a l IH]; intros pre0 H pre x post E.
  - destruct pre; discriminate.
  - destruct H as [Ha Hl]. destruct pre as [| b pre]; cbn in E.
    + injection E as -> _. rewrite app_nil_r. exact Ha.
    + injection E as -> E.
      replace (pre0 ++ b :: pre) with ((pre0 ++ [b]) ++ pre)
        by (rewrite <- app_assoc; reflexivity).
      eapply IH; eassumption.
Qed.

Lemma each_after_nil_split {A : Type} (P : list A -> A -> Prop) (l : list A) :
  each_after P [] l ->
  forall pre x post, l = pre ++ x :: post -> P pre x.
Proof.
  intros H pre x post E. change pre with ([] ++ pre).
  eapply each_after_split; eassumption.
Qed.

(** Symbolic execution of a run against an unknown handler: name the run,
    then split on each answer of the handler and on each test the script
    applies to an answer. *)
Ltac exec_step Hr h :=
  match type of Hr with
  | context [h ?o ?w] =>
      let v := fresh "v" in
      let e := fresh "e" in
      let w' := fresh "w" in
      let E := fresh "E" in
      destruct (h o w) as [[v | e] w'] eqn:E; cbn in Hr
  | context [truthy ?v] =>
      let T := fresh "T" in destruct (truthy v) eqn:T; cbn in Hr
  | context [is_Exception ?e] =>
      let T := fresh "X" in destruct (is_Exception e) eqn:T; cbn in Hr
  | context [is_ImportError ?e] =>
      let T := fresh "I" in destruct (is_ImportError e) eqn:T; cbn in Hr
  end.

(** Split a conjunction computed from an explicit list. *)
Ltac conjuncts :=
  cbn;
  repeat match goal with
         | |- _ /\ _ => split
         | |- True => exact I
         end.

(** Membership in an explicit list. *)
Ltac in_list := cbn; repeat first [left; reflexivity | right].

(** Case analysis on a hypothesis of membership in an explicit list. *)
Ltac in_cases H :=
  cbn in H;
  repeat match type of H with
         | _ \/ _ => destruct H as [H | H]
         end;
  first [contradiction H | discriminate H | (cbv in H; discriminate H)
        | injection H as H; subst | idtac].

Ltac exec_as r h p w :=
  let Hr := fresh "Hr" in
  remember (run h p w) as r eqn:Hr;
  cbn in Hr;
  repeat exec_step Hr h;
  subst r; cbn [outcome_of final stdout log].

Lemma is_row_truthy (v : pyval) : is_row v -> truthy v = true.
Proof. destruct v as [| [| x xs] | n]; cbn; tauto. Qed.

(** ** The script against an arbitrary handler *)

Section AnyHandler.
Variable W : Type.
Variable h : op -> W -> result * W.

(** C6.  Whenever a statement is executed on a cursor, the calls made
    before it include opening the connection, switching that connection
    to autocommit (a call that returned) and creating this cursor from
    it; and no call ever sets another isolation level.  So every
    statement, the creation statement included, runs in autocommit
    mode. *)
Theorem autocommit_before_statements :
  forall (w : W) (pre post : list (op * result)) (cur : pyval)
         (sql : string) (r : result),
    log (run h script w) = pre ++ (Execute cur sql, r) :: post ->
    (exists conn v,
        In (connect_op, Ok conn) pre /\
        In (SetIsolationLevel conn ISOLATION_LEVEL_AUTOCOMMIT, Ok v) pre /\
        In (Cursor conn, Ok cur) pre) /\
    (forall c level r',
        In (SetIsolationLevel c level, r') (log (run h script w)) ->
        level = ISOLATION_LEVEL_AUTOCOMMIT).
Proof.
  intros w pre post cur sql r.
  exec_as res h script w; intros Hsplit; (split; [| intros c level r' Hin; in_cases Hin; reflexivity]).
  all: refine (@each_after_nil_split _
                 (fun pre x =>
                    x = (Execute cur sql, r) ->
                    exists conn v,
                      In (connect_op, Ok conn) pre /\
                      In (SetIsolationLevel conn ISOLATION_LEVEL_AUTOCOMMIT,
                          Ok v) pre /\
                      In (Cursor conn, Ok cur) pre)
                 _ _ _ _ _ Hsplit eq_refl).
  all: conjuncts; intros Hx; try discriminate Hx.
  all: injection Hx as <- _ _; do 2 eexists; repeat split; in_list.
Qed.

(** C7.  Once the existence query has been answered, by [None] or by a
    row, the creation statement is sent exactly when the answer is [None].
    With [None] the script announces the creation and, when the statement
    returns, reports success; with a row it sends no creation statement
    and reports that the database already exists. *)
Theorem create_iff_no_row :
  forall (w : W) (cur v : pyval),
    In (Fetchone cur, Ok v) (log (run h script w)) ->
    v = PNone \/ is_row v ->
    ((exists c r, In (Execute c create_sql, r) (log (run h script w)))
     <-> v = PNone) /\
    (v = PNone ->
     In msg_creating (stdout (run h script w)) /\
     (exists r, In (Execute cur create_sql, r) (log (run h script w))) /\
     (forall c u, In (Execute c create_sql, Ok u) (log (run h script w)) ->
                  In msg_created (stdout (run h script w)))) /\
    (is_row v ->
     creations (log (run h script w)) = 0 /\
     In msg_exists (stdout (run h script w)) /\
     ~ In msg_created (stdout (run h script w))).
Proof.
  intros w cur v.
  exec_as res h script w; intros Hin Hshape; in_cases Hin.
  all: match goal with
       | T : truthy PNone = true |- _ => discriminate T
       | T : truthy _ = false |- _ =>
           destruct Hshape as [-> | Hrow];
           [| rewrite (is_row_truthy _ Hrow) in T; discriminate T]
       | T : truthy _ = true |- _ =>
           destruct Hshape as [-> | Hrow]; [discriminate T |]
       end.
  all: repeat split.
  all: try solve [ reflexivity | in_list | discriminate
                 | contradiction
                 | intros; in_list
                 | intros; subst; contradiction
                 | intros; do 2 eexists; in_list
                 | intros; eexists; in_list ].
  all: try solve [ intros; match goal with
                           | H : In _ _ |- _ => in_cases H
                           end ].
  all: try solve [ intros (c & r & Hc); in_cases Hc ].
  all: try solve [ intros Hc; in_cases Hc ].
Qed.

(** C4, as amended.  When a call of the connecting [try] block raises an
    [Exception], the script prints the error and the hint, sends no
    statement and exits with status 1.  When every call returns, whether
    the database had to be created or was already there, the script runs
    to its end and the status is 0. *)
Theorem exit_status_of_run :
  forall (w : W),
    (forall o e,
        In (o, Err e) (log (run h script w)) ->
        connect_phase o = true ->
        is_Exception e = true ->
        exit_status (outcome_of (run h script w)) = 1%Z /\
        In (msg_error_connecting e) (stdout (run h script w)) /\
        In msg_tip (stdout (run h script w)) /\
        (forall c sql r, ~ In (Execute c sql, r) (log (run h script w)))) /\
    (all_returned (log (run h script w)) = true ->
     outcome_of (run h script w) = Returned tt /\
     exit_status (outcome_of (run h script w)) = 0%Z).
Proof.
  intros w. unfold all_returned.
  exec_as res h script w; split.
  all: try solve [ intros Hall; cbn in Hall; first [discriminate Hall | auto] ].
  all: intros o e' Hin Hphase Hexn; in_cases Hin; try discriminate Hphase;
    try congruence.
  all: repeat split; try reflexivity; try solve [in_list].
  all: intros c sql r Hc; in_cases Hc.
Qed.

(** C5, as amended.  On a run that reaches the existence query and on
    which the statements, the fetch and the cursor close all return, the
    last two calls close the cursor and then the connection that the
    [try] block opened.  When a statement or the fetch raises, the run
    ends without either [close] call. *)
Theorem released_when_step_completes :
  forall (w : W),
    (forall cur r,
        In (Execute cur select_sql, r) (log (run h script w)) ->
        returned_where before_conn_close (log (run h script w)) = true ->
        exists front conn v rc,
          log (run h script w) =
            front ++ [(CursorClose cur, Ok v); (ConnClose conn, rc)] /\
          In (connect_op, Ok conn) front /\
          In (Cursor conn, Ok cur) front) /\
    (forall o e,
        In (o, Err e) (log (run h script w)) ->
        is_statement o = true \/ (exists cur, o = Fetchone cur) ->
        forall x r,
          ~ In (CursorClose x, r) (log (run h script w)) /\
          ~ In (ConnClose x, r) (log (run h script w))).
Proof.
  intros w. unfold returned_where.
  exec_as res h script w; split.
  all: try solve [ intros cur r Hin Hall; in_cases Hin;
                   cbn in Hall; discriminate Hall ].
  all: try solve [ intros o e' Hin Hkind; in_cases Hin;
                   solve [ destruct Hkind as [Hk | (c & Hk)]; discriminate Hk
                         | intros x r; split; intros Hc; in_cases Hc ] ].
  all: intros cur r Hin _; in_cases Hin.
  all: match goal with
       | |- exists front conn v rc,
             ?l = front ++ [(CursorClose _, _); (ConnClose ?c, ?r)] /\ _ =>
           exists (removelast (removelast l)); cbn;
           do 3 eexists; split; [reflexivity | split; in_list]
       end.
Qed.

(** C8.  No call is made twice in a run.  When a call made after the
    connecting [try] block raises anything but an [ImportError], it is the
    last call of the run and its exception is the outcome of the whole
    script: nothing catches it, and for an [Exception] the process ends
    with status 1. *)
Theorem later_failures_propagate :
  forall (w : W),
    NoDup (calls (log (run h script w))) /\
    (forall o e,
        In (o, Err e) (log (run h script w)) ->
        later_phase o = true ->
        is_ImportError e = false ->
        outcome_of (run h script w) = Raised e /\
        (exists front, log (run h script w) = front ++ [(o, Err e)]) /\
        (is_Exception e = true ->
         exit_status (outcome_of (run h script w)) = 1%Z)).
Proof.
  intros w. unfold calls.
  exec_as res h script w; split.
  all: try solve [ cbn; repeat (constructor; [cbn; intuition discriminate |]);
                   constructor ].
  all: intros o e' Hin Hphase Himp; in_cases Hin; try discriminate Hphase;
    try congruence.
  all: repeat split.
  all: try solve [ match goal with
                   | |- exists front, ?l = front ++ [_] =>
                       exists (removelast l); reflexivity
                   end ].
  all: destruct e'; cbn; intros; try reflexivity; discriminate.
Qed.

(** C9, the statements.  Every statement the script sends is the fixed
    existence query or the fixed creation statement, and each of the two
    is sent at most once. *)
Lemma only_two_statements :
  forall (w : W),
    (forall c sql r,
        In (Execute c sql, r) (log (run h script w)) ->
        sql = select_sql \/ sql = create_sql) /\
    sent select_sql (log (run h script w)) <= 1 /\
    sent create_sql (log (run h script w)) <= 1.
Proof.
  intros w. unfold sent.
  exec_as res h script w; repeat split.
  all: try solve [ cbn; lia ].
  all: intros c sql r Hin; in_cases Hin; auto.
Qed.
End AnyHandler.

(** What a run calls, prints and ends with can be read off the
    observations alone: replaying them gives the same. *)
Lemma run_from_observations :
  forall (W : Type) (h : op -> W -> result * W) (w : W),
    calls (log (run h script w)) =
      calls (log (run replay script (observations (log (run h script w))))) /\
    stdout (run h script w) =
      stdout (run replay script (observations (log (run h script w)))) /\
    outcome_of (run h script w) =
      outcome_of (run replay script (observations (log (run h script w)))).
Proof.
  intros W h w. unfold calls, observations.
  exec_as res h script w.
  all: cbn;
    repeat match goal with
           | T : truthy _ = _ |- _ => rewrite T; clear T; cbn
           | X : is_Exception _ = _ |- _ => rewrite X; clear X; cbn
           | I : is_ImportError _ = _ |- _ => rewrite I; clear I; cbn
           end.
  all: repeat split; reflexivity.
Qed.

(** C10, as amended.  Two runs of the script, in any two environments,
    whose calls are answered the same as far as the script can observe
    (the same calls raise, with the same exceptions; [connect] and
    [cursor] return the same objects; [fetchone] returns values of the
    same truth value) make the same calls in the same order, print the
    same lines and end the same way, with the same exit status.  Nothing
    else of the environment has any influence. *)
Theorem same_observations_same_run :
  forall (W1 W2 : Type) (h1 : op -> W1 -> result * W1)
         (h2 : op -> W2 -> result * W2) (w1 : W1) (w2 : W2),
    observations (log (run h1 script w1)) =
    observations (log (run h2 script w2)) ->
    calls (log (run h1 script w1)) = calls (log (run h2 script w2)) /\
    stdout (run h1 script w1) = stdout (run h2 script w2) /\
    outcome_of (run h1 script w1) = outcome_of (run h2 script w2) /\
    exit_status (outcome_of (run h1 script w1)) =
      exit_status (outcome_of (run h2 script w2)).
Proof.
  intros W1 W2 h1 h2 w1 w2 Hobs.
  destruct (run_from_observations h1 w1) as (Hc1 & Hs1 & Ho1).
  destruct (run_from_observations h2 w2) as (Hc2 & Hs2 & Ho2).
  rewrite Hobs in Hc1, Hs1, Ho1.
  assert (Ho : outcome_of (run h1 script w1) = outcome_of (run h2 script w2))
    by congruence.
  repeat split; congruence.
Qed.

(** ** Handlers that honour the two statements *)

Section Honouring.
Variable W : Type.
Variable h : op -> W -> result * W.
Variable has_db : W -> string -> bool.
Hypothesis HH : honours h has_db.

(** Carry the catalog entry of [n] along the calls of a path. *)
Ltac frames n :=
  repeat match goal with
         | E : h ?o ?w = (_, ?w') |- _ =>
             first [ pose proof (hon_other HH _ _ E eq_refl n)
                   | pose proof (hon_select_frame HH _ _ E n) ];
             revert E
         end;
  intros.

(** C2.  Against a server that honours the existence query and the
    creation statement, a run of the routine that returns leaves the
    target database in the catalog. *)
Theorem database_exists_after_success :
  forall (w : W),
    outcome_of (run h init_db w) = Returned tt ->
    has_db (final (run h init_db w)) TARGET_DB = true.
Proof.
  intros w.
  exec_as res h init_db w; intros Hout; try discriminate Hout.
  all: try solve
    [ (* the query found no row and the creation statement returned *)
      match goal with
      | E : h (Execute _ _) _ = (Ok _, ?w'), T : truthy _ = false |- _ =>
          assert (Hc : has_db w' TARGET_DB = true)
            by exact (hon_create HH _ _ E)
      end;
      frames TARGET_DB; congruence
    | (* the query found something *)
      match goal with
      | E1 : h (Execute ?c _) ?w0 = (Ok _, ?w1),
        E2 : h (Fetchone ?c) ?w1 = (Ok ?r, _), T : truthy ?r = true |- _ =>
          pose proof (hon_select HH _ _ E1 E2) as Hs;
          destruct (has_db w0 TARGET_DB) eqn:Hdb;
          [| subst r; discriminate T]
      end;
      frames TARGET_DB; congruence ].
Qed.

(** With the target already listed, no creation statement is sent. *)
Lemma no_creation_when_present :
  forall (w : W),
    has_db w TARGET_DB = true ->
    creations (log (run h script w)) = 0.
Proof.
  intros w Hdb.
  exec_as res h script w; try reflexivity.
  all: match goal with
       | E1 : h (Execute ?c _) ?w0 = (Ok _, ?w1),
         E2 : h (Fetchone ?c) ?w1 = (Ok ?r, _), T : truthy ?r = false |- _ =>
           pose proof (hon_select HH _ _ E1 E2) as Hs;
           assert (Hw0 : has_db w0 TARGET_DB = true)
             by (clear Hs; frames TARGET_DB; congruence);
           rewrite Hw0 in Hs; rewrite (is_row_truthy _ Hs) in T;
           discriminate T
       end.
Qed.

(** Whatever the run does, the catalog entries of all other databases
    are as before. *)
Lemma others_untouched :
  forall (w : W) (n : string),
    n <> TARGET_DB ->
    has_db (final (run h script w)) n = has_db w n.
Proof.
  intros w n Hn.
  exec_as res h script w.
  all: repeat match goal with
              | E : h (Execute _ _) _ = _ |- _ =>
                  pose proof (hon_create_frame HH _ _ E Hn); revert E
              end; intros; frames n; congruence.
Qed.
End Honouring.

(** ** The reference server honours the statements *)

Lemma parse_select_sql : Pg.parse select_sql = Pg.SelectExists TARGET_DB.
Proof. reflexivity. Qed.

Lemma parse_create_sql : Pg.parse create_sql = Pg.CreateDatabase TARGET_DB.
Proof. reflexivity. Qed.

Lemma has_db_with_sess (w : Pg.world) (s : option Pg.session) (n : string) :
  Pg.has_db (Pg.with_sess w s) n = Pg.has_db w n.
Proof. reflexivity. Qed.

Lemma has_db_created (w0 w : Pg.world) (name n : string) :
  Pg.has_db (Pg.with_databases w0 (Pg.databases w ++ [name])) n =
  Pg.has_db w n || String.eqb n name.
Proof.
  unfold Pg.has_db. cbn. rewrite existsb_app. cbn.
  rewrite orb_false_r. reflexivity.
Qed.

Lemma pg_execute_select (w : Pg.world) (s : Pg.session) :
  Pg.execute w s select_sql =
  (Ok PNone,
   Pg.with_sess w
     (Some (Pg.mkSession (Pg.conn_open s) (Pg.autocommit s) (Pg.cursor_open s)
              (Some (if Pg.has_db w TARGET_DB then [[1%Z]] else []))))).
Proof. unfold Pg.execute. rewrite parse_select_sql. reflexivity. Qed.

Lemma pg_execute_create (w : Pg.world) (s : Pg.session) :
  Pg.execute w s create_sql =
  if negb (Pg.autocommit s) then
    (Err (Psycopg2Error
            "CREATE DATABASE cannot run inside a transaction block"), w)
  else if negb (Pg.createdb w) then
    (Err (Psycopg2Error "permission denied to create database"), w)
  else if Pg.has_db w TARGET_DB then
    (Err (Psycopg2Error ("database " ++ TARGET_DB ++ " already exists")), w)
  else
    (Ok PNone,
     Pg.with_databases
       (Pg.with_sess w (Some (Pg.mkSession (Pg.conn_open s) (Pg.autocommit s)
                                (Pg.cursor_open s) None)))
       (Pg.databases w ++ [TARGET_DB])).
Proof. unfold Pg.execute. rewrite parse_create_sql. reflexivity. Qed.

Lemma pg_honours : honours Pg.handle Pg.has_db.
Proof.
  constructor.
  - (* calls that are not statements *)
    intros o w r w' E Hst n.
    destruct o; try discriminate Hst; cbn in E;
      unfold Pg.live_conn, Pg.live_cursor in E;
      repeat match type of E with
             | context [match ?x with _ => _ end] => destruct x
             end;
      injection E as _ <-; reflexivity.
  - (* the existence query leaves the catalog alone *)
    intros cur w r w' E n.
    unfold Pg.handle in E. destruct (Pg.live_cursor w cur).
    + rewrite pg_execute_select in E. injection E as _ <-. reflexivity.
    + injection E as _ <-. reflexivity.
  - (* the existence query answers with a row exactly when listed *)
    intros cur w v w1 r w2 E1 E2.
    unfold Pg.handle in E1.
    destruct (Pg.live_cursor w cur) as [s |] eqn:L; [| discriminate E1].
    rewrite pg_execute_select in E1. injection E1 as _ <-.
    unfold Pg.live_cursor in L.
    destruct (Pg.sess w) as [s0 |]; [| discriminate L].
    destruct (Pg.is_cursor cur && Pg.conn_open s0 && Pg.cursor_open s0) eqn:C;
      [| discriminate L].
    injection L as ->.
    cbn in E2. unfold Pg.live_cursor in E2. cbn in E2. rewrite C in E2.
    cbn in E2.
    destruct (Pg.has_db w TARGET_DB); injection E2 as <- _; exact I || reflexivity.
  - (* a creation statement that returns has listed the target *)
    intros cur w v w' E.
    unfold Pg.handle in E.
    destruct (Pg.live_cursor w cur) as [s |]; [| discriminate E].
    rewrite pg_execute_create in E.
    destruct (negb (Pg.autocommit s)); [discriminate E |].
    destruct (negb (Pg.createdb w)); [discriminate E |].
    destruct (Pg.has_db w TARGET_DB); [discriminate E |].
    injection E as _ <-.
    rewrite has_db_created, String.eqb_refl, orb_true_r. reflexivity.
  - (* and nothing but the target *)
    intros cur w r w' E n Hn.
    unfold Pg.handle in E.
    destruct (Pg.live_cursor w cur) as [s |]; [| injection E as _ <-; reflexivity].
    rewrite pg_execute_create in E.
    destruct (negb (Pg.autocommit s)); [injection E as _ <-; reflexivity |].
    destruct (negb (Pg.createdb w)); [injection E as _ <-; reflexivity |].
    destruct (Pg.has_db w TARGET_DB); [injection E as _ <-; reflexivity |].
    injection E as _ <-.
    rewrite has_db_created.
    apply String.eqb_neq in Hn. rewrite Hn, orb_false_r. reflexivity.
Qed.

(** ** Runs against the reference server *)

Lemma run_on_fresh (dbs : list string) (ss : option Pg.session) :
  existsb (String.eqb "postgres") dbs = true ->
  existsb (String.eqb TARGET_DB) dbs = false ->
  run Pg.handle script (Pg.mkWorld true true DB_USER DB_PASSWORD true dbs ss) =
  mkRun (Returned tt)
        (Pg.mkWorld true true DB_USER DB_PASSWORD true (dbs ++ [TARGET_DB])
                    (Some (closed_session None)))
        [msg_connecting; msg_creating; msg_created; msg_done]
        log_created.
Proof.
  intros Hmaint Hdb.
  assert (Hlisted : forall w', Pg.databases w' = dbs ->
                               Pg.has_db w' "postgres" = true)
    by (intros w' <-; exact Hmaint).
  assert (Habsent : forall w', Pg.databases w' = dbs ->
                               Pg.has_db w' TARGET_DB = false)
    by (intros w' <-; exact Hdb).
  cbv -[Pg.has_db]. rewrite Hlisted by reflexivity.
  cbv -[Pg.has_db]. rewrite Habsent by reflexivity.
  cbv -[Pg.has_db]. rewrite Habsent by reflexivity.
  reflexivity.
Qed.

Lemma run_on_present (dbs : list string) (ss : option Pg.session) :
  existsb (String.eqb "postgres") dbs = true ->
  existsb (String.eqb TARGET_DB) dbs = true ->
  run Pg.handle script (Pg.mkWorld true true DB_USER DB_PASSWORD true dbs ss) =
  mkRun (Returned tt)
        (Pg.mkWorld true true DB_USER DB_PASSWORD true dbs
                    (Some (closed_session (Some []))))
        [msg_connecting; msg_exists; msg_done]
        log_existing.
Proof.
  intros Hmaint Hdb.
  assert (Hlisted : forall w', Pg.databases w' = dbs ->
                               Pg.has_db w' "postgres" = true)
    by (intros w' <-; exact Hmaint).
  assert (Hpresent : forall w', Pg.databases w' = dbs ->
                                Pg.has_db w' TARGET_DB = true)
    by (intros w' <-; exact Hdb).
  cbv -[Pg.has_db]. rewrite Hlisted by reflexivity.
  cbv -[Pg.has_db]. rewrite Hpresent by reflexivity.
  reflexivity.
Qed.

(** C1.  Against a server that honours the two statements and lists the
    target, a run sends no creation statement.  Two runs in a row against a
    fresh reference server (up, with its maintenance database, accepting
    the login, without the target): the first sends one creation
    statement, the second sends none and prints that the database already
    exists; both run to their end, and the second leaves the catalog as
    the first left it. *)
Theorem bootstrap_idempotent :
  (forall (W : Type) (h : op -> W -> result * W)
          (has_db : W -> string -> bool),
      honours h has_db ->
      forall w : W,
        has_db w TARGET_DB = true ->
        creations (log (run h script w)) = 0) /\
  (forall w : Pg.world,
      fresh_server w ->
      let first := run Pg.handle script w in
      let second := run Pg.handle script (final first) in
      creations (log first) = 1 /\
      creations (log second) = 0 /\
      creations (log first ++ log second) = 1 /\
      In msg_created (stdout first) /\
      In msg_exists (stdout second) /\
      outcome_of first = Returned tt /\
      outcome_of second = Returned tt /\
      Pg.has_db (final first) TARGET_DB = true /\
      Pg.databases (final second) = Pg.databases (final first)).
Proof.
  split.
  - intros W h has_db HH w Hdb. exact (no_creation_when_present HH w Hdb).
  - intros [di li su pw cd dbs ss] [(Hdi & Hli & Hsu & Hpw & Hcd & Hm) Hdb].
    cbn in Hdi, Hli, Hsu, Hpw, Hcd. subst.
    unfold Pg.has_db in Hm, Hdb. cbn [Pg.databases] in Hm, Hdb.
    assert (Hlater : existsb (String.eqb TARGET_DB) (dbs ++ [TARGET_DB]) = true).
    { rewrite existsb_app. apply orb_true_iff. right. reflexivity. }
    assert (Hm' : existsb (String.eqb "postgres") (dbs ++ [TARGET_DB]) = true).
    { rewrite existsb_app, Hm. reflexivity. }
    cbv zeta. rewrite (run_on_fresh dbs ss Hm Hdb).
    cbn [final log stdout outcome_of].
    rewrite (run_on_present (dbs ++ [TARGET_DB]) _ Hm' Hlater).
    cbn [final log stdout outcome_of Pg.databases].
    repeat match goal with |- _ /\ _ => split end.
    all: first [reflexivity | exact Hlater | in_list].
Qed.

(** A relation between worlds that every call respects is respected by
    every run. *)
Lemma run_preserves (W : Type) (h : op -> W -> result * W)
      (R : W -> W -> Prop) :
  (forall w, R w w) ->
  (forall w1 w2 w3, R w1 w2 -> R w2 w3 -> R w1 w3) ->
  (forall o w r w', h o w = (r, w') -> R w w') ->
  forall (A : Type) (p : prog A) (w : W), R w (final (run h p w)).
Proof.
  intros Hrefl Htrans Hstep.
  induction p as [A a | A e | A line k IHk | A o k IHk
                 | A X body IHb catches handler IHh k IHk];
    intros w; cbn.
  - apply Hrefl.
  - apply Hrefl.
  - specialize (IHk w). destruct (run h k w). exact IHk.
  - destruct (h o w) as [[v | e] w1] eqn:E.
    + specialize (IHk v w1). destruct (run h (k v) w1); cbn in *.
      eapply Htrans; [exact (Hstep _ _ _ _ E) | exact IHk].
    + exact (Hstep _ _ _ _ E).
  - specialize (IHb w).
    destruct (run h body w) as [[x | e] wb outb lgb]; cbn in *.
    + specialize (IHk x wb). destruct (run h (k x) wb); cbn in *.
      eapply Htrans; eassumption.
    + destruct (catches e); [| exact IHb].
      specialize (IHh e wb).
      destruct (run h (handler e) wb) as [[x | e'] wh outh lgh]; cbn in *.
      * specialize (IHk x wh). destruct (run h (k x) wh); cbn in *.
        eapply Htrans; [exact IHb |]. eapply Htrans; eassumption.
      * eapply Htrans; eassumption.
Qed.

Lemma pg_handle_same_settings (o : op) (w : Pg.world) (r : result)
      (w' : Pg.world) :
  Pg.handle o w = (r, w') -> same_settings w w'.
Proof.
  intros E. unfold same_settings.
  destruct o; cbn in E;
    unfold Pg.live_conn, Pg.live_cursor, Pg.execute in E;
    repeat match type of E with
           | context [match ?x with _ => _ end] => destruct x
           end;
    injection E as _ <-; cbn; auto.
Qed.

(** C9.  Every statement the script sends is the fixed existence query or
    the fixed creation statement, each at most once.  Hence, against a
    server that honours the two statements, the catalog entry of every
    database other than the target is after the run what it was before;
    and the reference server keeps all its settings. *)
Theorem only_target_touched :
  (select_sql =
     "SELECT 1 FROM pg_catalog.pg_database WHERE datname = 'idem_test'" /\
   create_sql = "CREATE DATABASE idem_test") /\
  (forall (W : Type) (h : op -> W -> result * W) (w : W),
      (forall c sql r,
          In (Execute c sql, r) (log (run h script w)) ->
          sql = select_sql \/ sql = create_sql) /\
      sent select_sql (log (run h script w)) <= 1 /\
      sent create_sql (log (run h script w)) <= 1) /\
  (forall (W : Type) (h : op -> W -> result * W)
          (has_db : W -> string -> bool),
      honours h has_db ->
      forall (w : W) (n : string),
        n <> TARGET_DB ->
        has_db (final (run h script w)) n = has_db w n) /\
  (forall w : Pg.world, same_settings w (final (run Pg.handle script w))).
Proof.
  split; [split; reflexivity |].
  split; [intros W h w; apply only_two_statements |].
  split; [intros W h has_db HH w n Hn; apply others_untouched; assumption |].
  intros w. apply run_preserves with (R := same_settings).
  - unfold same_settings. auto.
  - unfold same_settings. intros w1 w2 w3 H12 H23.
    decompose [and] H12. decompose [and] H23. repeat split; congruence.
  - apply pg_handle_same_settings.
Qed.

(** ** The script on particular servers *)

(** C3, on the code.  Without the driver the first import statement
    raises; the [try] of the main block is never entered, nothing is
    printed, and the [ImportError] ends the process with status 1. *)
Theorem missing_driver_is_unhandled :
  run Pg.handle script no_driver =
  mkRun (Raised (ImportError "No module named 'psycopg2'")) no_driver []
        [(Import "psycopg2", Err (ImportError "No module named 'psycopg2'"))]
  /\ exit_status (outcome_of (run Pg.handle script no_driver)) = 1%Z
  /\ ~ In msg_install (stdout (run Pg.handle script no_driver)).
Proof.
  split; [reflexivity |]. split; [reflexivity |].
  intros H. exact H.
Qed.

(** C4 as stated fails: the status is 1 although every call that opens
    the connection returned. *)
Lemma status_one_without_connection_failure :
  ~ (exit_status (outcome_of (run Pg.handle script no_privilege)) = 1%Z <->
     exists o e,
       In (o, Err e) (log (run Pg.handle script no_privilege)) /\
       connect_phase o = true).
Proof.
  intros [Hfwd _].
  destruct (Hfwd eq_refl) as (o & e & Hin & Hphase).
  vm_compute in Hin.
  repeat match type of Hin with
         | _ \/ _ => destruct Hin as [Hin | Hin]
         end;
    first [contradiction Hin | discriminate Hin | idtac].
  injection Hin as <- _. discriminate Hphase.
Qed.

(** C5 as stated fails: the creation statement is reached and raises, no
    [close] call follows, and the session is still open at the end. *)
Lemma connection_left_open_on_failed_creation :
  In (Execute Pg.the_cursor create_sql,
      Err (Psycopg2Error "permission denied to create database"))
     (log (run Pg.handle script no_privilege)) /\
  existsb is_close (calls (log (run Pg.handle script no_privilege))) = false /\
  option_map Pg.conn_open (Pg.sess (final (run Pg.handle script no_privilege)))
    = Some true.
Proof.
  split; [vm_compute; tauto |]. split; reflexivity.
Qed.

(** C10 as stated fails: two runs with the same connection outcome and
    the same answer to the existence query (the first nine calls and
    answers coincide) differ in their calls, their output and their exit
    status, because the creation statement is answered differently. *)
Lemma same_query_answer_different_runs :
  firstn 9 (log (run Pg.handle script (Pg.server ["postgres"]))) =
  firstn 9 (log (run Pg.handle script no_privilege)) /\
  calls (log (run Pg.handle script (Pg.server ["postgres"]))) <>
  calls (log (run Pg.handle script no_privilege)) /\
  stdout (run Pg.handle script (Pg.server ["postgres"])) <>
  stdout (run Pg.handle script no_privilege) /\
  exit_status (outcome_of (run Pg.handle script (Pg.server ["postgres"]))) <>
  exit_status (outcome_of (run Pg.handle script no_privilege)).
Proof.
  split; [reflexivity |].
  repeat split; intros H; vm_compute in H; discriminate H.
Qed.

(** Without its maintenance database the reference server refuses the
    connection of the script. *)
Lemma connect_needs_maintenance_database (w : Pg.world) :
  Pg.has_db w "postgres" = false ->
  is_ok (fst (Pg.handle connect_op w)) = false.
Proof.
  intros Hm. unfold connect_op. cbn -[Pg.has_db].
  repeat match goal with
         | |- context [if ?c then _ else _] => destruct c eqn:?
         end; try reflexivity.
  rewrite Hm in *. discriminate.
Qed.

(** ** The theorems at work on the reference server *)

Lemma bootstrap_idempotent_witness :
  (Pg.has_db provisioned TARGET_DB = true /\
   creations (log (run Pg.handle script provisioned)) = 0) /\
  (fresh_server Pg.fresh /\
   creations (log (run Pg.handle script Pg.fresh)
              ++ log (run Pg.handle script
                          (final (run Pg.handle script Pg.fresh)))) = 1).
Proof.
  assert (Hfresh : fresh_server Pg.fresh)
    by (unfold fresh_server, ready; repeat split; reflexivity).
  split; split.
  - reflexivity.
  - apply (proj1 bootstrap_idempotent _ Pg.handle Pg.has_db pg_honours
                 provisioned).
    reflexivity.
  - exact Hfresh.
  - destruct (proj2 bootstrap_idempotent Pg.fresh Hfresh) as (_ & _ & H & _).
    exact H.
Defined.

Lemma database_exists_after_success_witness :
  outcome_of (run Pg.handle init_db Pg.fresh) = Returned tt /\
  Pg.has_db (final (run Pg.handle init_db Pg.fresh)) TARGET_DB = true.
Proof.
  split; [reflexivity |].
  apply (@database_exists_after_success _ Pg.handle Pg.has_db pg_honours
                                        Pg.fresh).
  reflexivity.
Defined.

Lemma exit_status_of_run_witness :
  (In (connect_op, Err (Psycopg2Error "connection to server failed"))
      (log (run Pg.handle script server_down)) /\
   exit_status (outcome_of (run Pg.handle script server_down)) = 1%Z /\
   In msg_tip (stdout (run Pg.handle script server_down))) /\
  (all_returned (log (run Pg.handle script provisioned)) = true /\
   exit_status (outcome_of (run Pg.handle script provisioned)) = 0%Z).
Proof.
  assert (Hin : In (connect_op,
                    Err (Psycopg2Error "connection to server failed"))
                   (log (run Pg.handle script server_down)))
    by (vm_compute; tauto).
  split; split.
  - exact Hin.
  - destruct (proj1 (@exit_status_of_run _ Pg.handle server_down)
                    connect_op _ Hin eq_refl eq_refl) as (H1 & _ & H3 & _).
    split; assumption.
  - reflexivity.
  - apply (proj2 (@exit_status_of_run _ Pg.handle provisioned)). reflexivity.
Defined.

Lemma released_when_step_completes_witness :
  (exists front conn v rc,
      log (run Pg.handle script Pg.fresh) =
        front ++ [(CursorClose Pg.the_cursor, Ok v); (ConnClose conn, rc)] /\
      In (connect_op, Ok conn) front /\
      In (Cursor conn, Ok Pg.the_cursor) front) /\
  (~ In (CursorClose Pg.the_cursor, Ok PNone)
        (log (run Pg.handle script no_privilege)) /\
   ~ In (ConnClose Pg.the_conn, Ok PNone)
        (log (run Pg.handle script no_privilege))).
Proof.
  split.
  - apply (proj1 (@released_when_step_completes _ Pg.handle Pg.fresh)
                 Pg.the_cursor (Ok PNone)).
    + vm_compute; tauto.
    + reflexivity.
  - assert (Hnone :
              forall x r,
                ~ In (CursorClose x, r)
                     (log (run Pg.handle script no_privilege)) /\
                ~ In (ConnClose x, r)
                     (log (run Pg.handle script no_privilege))).
    { apply (proj2 (@released_when_step_completes _ Pg.handle no_privilege)
                   (Execute Pg.the_cursor create_sql)
                   (Psycopg2Error "permission denied to create database")).
      + vm_compute; tauto.
      + left. reflexivity. }
    split.
    + exact (proj1 (Hnone Pg.the_cursor (Ok PNone))).
    + exact (proj2 (Hnone Pg.the_conn (Ok PNone))).
Defined.

Lemma autocommit_before_statements_witness :
  exists conn v,
    In (connect_op, Ok conn)
       (log_opening ++ [(Fetchone Pg.the_cursor, Ok PNone)]) /\
    In (SetIsolationLevel conn ISOLATION_LEVEL_AUTOCOMMIT, Ok v)
       (log_opening ++ [(Fetchone Pg.the_cursor, Ok PNone)]) /\
    In (Cursor conn, Ok Pg.the_cursor)
       (log_opening ++ [(Fetchone Pg.the_cursor, Ok PNone)]).
Proof.
  apply (@autocommit_before_statements _ Pg.handle Pg.fresh
           (log_opening ++ [(Fetchone Pg.the_cursor, Ok PNone)])
           log_closing Pg.the_cursor create_sql (Ok PNone)).
  reflexivity.
Defined.

Lemma create_iff_no_row_witness :
  (exists c r, In (Execute c create_sql, r)
                  (log (run Pg.handle script Pg.fresh))) /\
  creations (log (run Pg.handle script provisioned)) = 0.
Proof.
  split.
  - apply (proj1 (@create_iff_no_row _ Pg.handle Pg.fresh Pg.the_cursor PNone
                    ltac:(vm_compute; tauto) (or_introl eq_refl))).
    reflexivity.
  - apply (proj2 (proj2 (@create_iff_no_row _ Pg.handle provisioned
                           Pg.the_cursor (PTuple [1%Z])
                           ltac:(vm_compute; tauto) (or_intror I)))).
    exact I.
Defined.

Lemma later_failures_propagate_witness :
  outcome_of (run Pg.handle script no_privilege) =
  Raised (Psycopg2Error "permission denied to create database").
Proof.
  apply (proj2 (@later_failures_propagate _ Pg.handle no_privilege)
               (Execute Pg.the_cursor create_sql)
               (Psycopg2Error "permission denied to create database")).
  - vm_compute; tauto.
  - reflexivity.
  - reflexivity.
Defined.

Lemma only_target_touched_witness :
  Pg.has_db (final (run Pg.handle script Pg.fresh)) "postgres" =
  Pg.has_db Pg.fresh "postgres".
Proof.
  apply (proj1 (proj2 (proj2 only_target_touched)) _ Pg.handle Pg.has_db
               pg_honours Pg.fresh "postgres").
  discriminate.
Defined.

Lemma same_observations_same_run_witness :
  observations (log (run Pg.handle script Pg.fresh)) =
  observations (log (run Pg.handle script (Pg.server ["postgres"]))) /\
  calls (log (run Pg.handle script Pg.fresh)) =
  calls (log (run Pg.handle script (Pg.server ["postgres"]))) /\
  stdout (run Pg.handle script Pg.fresh) =
  stdout (run Pg.handle script (Pg.server ["postgres"])).
Proof.
  split; [reflexivity |].
  destruct (@same_observations_same_run _ _ Pg.handle Pg.handle Pg.fresh
              (Pg.server ["postgres"]) eq_refl) as (Hc & Hs & _).
  split; assumption.
Defined.

(** ** More on the script against an arbitrary handler *)

Section Behaviour.
Variable W : Type.
Variable h : op -> W -> result * W.

(** The install guidance of the main block is printed exactly when a call
    made after the connecting [try] block raises an [ImportError]; the
    script then ends normally, with status 0, without having printed
    the final line. *)
Theorem guidance_iff_late_import_error :
  forall (w : W),
    (In msg_install (stdout (run h script w)) <->
     exists o msg,
       In (o, Err (ImportError msg)) (log (run h script w)) /\
       later_phase o = true) /\
    (In msg_install (stdout (run h script w)) ->
     outcome_of (run h script w) = Returned tt /\
     exit_status (outcome_of (run h script w)) = 0%Z /\
     ~ In msg_done (stdout (run h script w))).
Proof.
  intros w.
  exec_as res h script w; (split; [split |]).
  all: try solve [ intros Hin; in_cases Hin ].
  all: try solve [ intros (o & msg & Hin & Hphase); in_cases Hin;
                   first [ discriminate Hphase
                         | match goal with
                           | I : is_ImportError _ = false |- _ =>
                               discriminate I
                           end ] ].
  all: try solve [ intros _; in_list ].
  all: try solve [ match goal with
                   | I : is_ImportError ?e = true,
                     X : is_Exception ?e = false |- _ =>
                       destruct e; discriminate
                   end ].
  all: try solve [ intros _;
                   match goal with
                   | I : is_ImportError ?e = true |- _ =>
                       destruct e; try discriminate I;
                       do 2 eexists; split; [in_list | reflexivity]
                   end ].
  all: intros _; split; [reflexivity |];
    split; [reflexivity | intros Hin; in_cases Hin].
Qed.

(** The final line is printed exactly when every call returned. *)
Theorem done_iff_all_returned :
  forall (w : W),
    In msg_done (stdout (run h script w)) <->
    all_returned (log (run h script w)) = true.
Proof.
  intros w. unfold all_returned.
  exec_as res h script w; split.
  all: try solve [ intros Hin; in_cases Hin ].
  all: try solve [ intros Hall; discriminate Hall ].
  all: try solve [ intros _; reflexivity ].
  all: intros _; in_list.
Qed.

(** When the environment raises nothing but [Exception]s, the exit status
    is 0 or 1, and it is 0 exactly when every call returned or a call after
    the connecting [try] block raised an [ImportError]. *)
Theorem exit_status_zero_iff :
  forall (w : W),
    only_exceptions (log (run h script w)) = true ->
    (exit_status (outcome_of (run h script w)) = 0%Z \/
     exit_status (outcome_of (run h script w)) = 1%Z) /\
    (exit_status (outcome_of (run h script w)) = 0%Z <->
     all_returned (log (run h script w)) = true \/
     exists o msg,
       In (o, Err (ImportError msg)) (log (run h script w)) /\
       later_phase o = true).
Proof.
  intros w. unfold only_exceptions, all_returned.
  exec_as res h script w; intros Hexc; cbn in Hexc;
    rewrite ?andb_true_r in Hexc; try congruence.
  all: repeat match goal with
              | e : exn |- _ => destruct e; try discriminate
              end.
  all: cbn; split; [auto |]; split.
  all: try solve [ intros; discriminate ].
  all: try solve [ intros _; left; reflexivity ].
  all: try solve [ intros _; right; do 2 eexists; split;
                   [in_list | reflexivity] ].
  all: try solve [ intros [Hall | (o & m & Hin & Hphase)];
                   [ discriminate Hall
                   | in_cases Hin; discriminate ] ].
  all: intros; reflexivity.
Qed.
End Behaviour.

Section Order.
Variable W : Type.
Variable h : op -> W -> result * W.

(** The calls of any run are an initial part of the protocol, where the
    connection is the object that [connect] returned, the cursor the object
    that [cursor] returned on that connection, and the creation statement
    is part of it exactly when [fetchone] returned a false value: the
    script opens one connection, to the maintenance database, uses only
    that connection and the one cursor it got from it, and never calls out
    of order. *)
Theorem calls_follow_protocol :
  forall (w : W),
    exists conn cur creates,
      calls (log (run h script w)) =
      firstn (List.length (log (run h script w)))
             (protocol conn cur creates) /\
      (5 < List.length (log (run h script w)) ->
       nth_error (log (run h script w)) 4 = Some (connect_op, Ok conn)) /\
      (7 < List.length (log (run h script w)) ->
       nth_error (log (run h script w)) 6 = Some (Cursor conn, Ok cur)) /\
      (9 < List.length (log (run h script w)) ->
       exists v,
         nth_error (log (run h script w)) 8 = Some (Fetchone cur, Ok v) /\
         creates = negb (truthy v)).
Proof.
  intros w. unfold calls.
  exec_as res h script w.
  all: first
         [ (eexists; eexists; exists true; split; [reflexivity |];
            repeat split; intros Hlen; cbn in Hlen;
            first [ lia | reflexivity
                  | eexists; split; [reflexivity |];
                    match goal with
                    | T : truthy _ = _ |- _ => rewrite T; reflexivity
                    end ])
         | (eexists; eexists; exists false; split; [reflexivity |];
            repeat split; intros Hlen; cbn in Hlen;
            first [ lia | reflexivity
                  | eexists; split; [reflexivity |];
                    match goal with
                    | T : truthy _ = _ |- _ => rewrite T; reflexivity
                    end ]) ].
  Unshelve. all: exact PNone.
Qed.

(** The script stops calling at the first call that raises: every call
    but the last one of a run returned. *)
Theorem failure_is_last_call :
  forall (w : W),
    all_returned (removelast (log (run h script w))) = true.
Proof.
  intros w. unfold all_returned.
  exec_as res h script w; reflexivity.
Qed.

(** When a call of the connecting [try] block raises, neither [close] is
    ever called, also when the connection itself had been opened. *)
Theorem no_close_after_connect_failure :
  forall (w : W) (o : op) (e : exn),
    In (o, Err e) (log (run h script w)) ->
    connect_phase o = true ->
    existsb is_close (calls (log (run h script w))) = false.
Proof.
  intros w o e. unfold calls.
  exec_as res h script w; intros Hin Hphase; in_cases Hin;
    first [discriminate Hphase | reflexivity].
Qed.
End Order.

Section Composition.
Variable W : Type.
Variable h : op -> W -> result * W.
Variable has_db : W -> string -> bool.
Hypothesis HH : honours h has_db.

Ltac carry n :=
  repeat match goal with
         | E : h ?o ?w = (_, ?w') |- _ =>
             first [ pose proof (hon_other HH _ _ E eq_refl n)
                   | pose proof (hon_select_frame HH _ _ E n) ];
             revert E
         end;
  intros.

(** Against a server that honours the two statements and already lists
    the target, a run leaves every entry of the catalog as it was,
    however the run ends. *)
Theorem provisioned_catalog_unchanged :
  forall (w : W),
    has_db w TARGET_DB = true ->
    forall n, has_db (final (run h script w)) n = has_db w n.
Proof.
  intros w Hdb n.
  exec_as res h script w.
  all: try solve [ carry n; congruence ].
  all: match goal with
       | E1 : h (Execute ?c _) ?w0 = (Ok _, ?w1),
         E2 : h (Fetchone ?c) ?w1 = (Ok ?r, _), T : truthy ?r = false |- _ =>
           pose proof (hon_select HH _ _ E1 E2) as Hs;
           assert (Hw0 : has_db w0 TARGET_DB = true)
             by (clear Hs; carry TARGET_DB; congruence);
           rewrite Hw0 in Hs; rewrite (is_row_truthy _ Hs) in T;
           discriminate T
       end.
Qed.

(** When every call of a run returned, the target is in the catalog. *)
Lemma target_listed_when_all_returned :
  forall (w : W),
    all_returned (log (run h script w)) = true ->
    has_db (final (run h script w)) TARGET_DB = true.
Proof.
  intros w. unfold all_returned.
  exec_as res h script w; intros Hall; try discriminate Hall.
  all: try solve
    [ match goal with
      | E : h (Execute _ _) _ = (Ok _, ?w'), T : truthy _ = false |- _ =>
          assert (Hc : has_db w' TARGET_DB = true)
            by exact (hon_create HH _ _ E)
      end;
      carry TARGET_DB; congruence
    | match goal with
      | E1 : h (Execute ?c _) ?w0 = (Ok _, ?w1),
        E2 : h (Fetchone ?c) ?w1 = (Ok ?r, _), T : truthy ?r = true |- _ =>
          pose proof (hon_select HH _ _ E1 E2) as Hs;
          destruct (has_db w0 TARGET_DB) eqn:Hdb;
          [| subst r; discriminate T]
      end;
      carry TARGET_DB; congruence ].
Qed.

(** Idempotence against any server that honours the two statements: after
    a run on which every call returned, the next run, started where that
    one ended, sends no creation statement. *)
Theorem second_run_creates_nothing :
  forall (w : W),
    all_returned (log (run h script w)) = true ->
    creations (log (run h script (final (run h script w)))) = 0.
Proof.
  intros w Hall.
  apply (no_creation_when_present HH).
  apply target_listed_when_all_returned. exact Hall.
Qed.
End Composition.

(** ** These theorems at work *)

Lemma guidance_iff_late_import_error_witness :
  In msg_install (stdout (run late_import_failure script Pg.fresh)) /\
  exit_status (outcome_of (run late_import_failure script Pg.fresh)) = 0%Z.
Proof.
  assert (Hin : In msg_install
                   (stdout (run late_import_failure script Pg.fresh))).
  { apply (proj1 (@guidance_iff_late_import_error _ late_import_failure
                    Pg.fresh)).
    exists (Execute Pg.the_cursor select_sql).
    exists "No module named 'psycopg2._psycopg'".
    split; [vm_compute; tauto | reflexivity]. }
  split; [exact Hin |].
  destruct (proj2 (@guidance_iff_late_import_error _ late_import_failure
                     Pg.fresh) Hin) as (_ & H0 & _).
  exact H0.
Defined.

Lemma done_iff_all_returned_witness :
  all_returned (log (run Pg.handle script Pg.fresh)) = true /\
  In msg_done (stdout (run Pg.handle script Pg.fresh)).
Proof.
  split; [reflexivity |].
  apply (proj2 (@done_iff_all_returned _ Pg.handle Pg.fresh)). reflexivity.
Defined.

Lemma exit_status_zero_iff_witness :
  only_exceptions (log (run Pg.handle script server_down)) = true /\
  (exit_status (outcome_of (run Pg.handle script server_down)) = 0%Z \/
   exit_status (outcome_of (run Pg.handle script server_down)) = 1%Z).
Proof.
  split; [reflexivity |].
  apply (@exit_status_zero_iff _ Pg.handle server_down). reflexivity.
Defined.

Lemma no_close_after_connect_failure_witness :
  In (connect_op, Err (Psycopg2Error "connection to server failed"))
     (log (run Pg.handle script server_down)) /\
  existsb is_close (calls (log (run Pg.handle script server_down))) = false.
Proof.
  assert (Hin : In (connect_op,
                    Err (Psycopg2Error "connection to server failed"))
                   (log (run Pg.handle script server_down)))
    by (vm_compute; tauto).
  split; [exact Hin |].
  apply (@no_close_after_connect_failure _ Pg.handle server_down _ _ Hin).
  reflexivity.
Defined.

Lemma provisioned_catalog_unchanged_witness :
  Pg.has_db provisioned TARGET_DB = true /\
  Pg.has_db (final (run Pg.handle script provisioned)) "postgres" =
  Pg.has_db provisioned "postgres".
Proof.
  split; [reflexivity |].
  apply (@provisioned_catalog_unchanged _ Pg.handle Pg.has_db pg_honours
                                        provisioned).
  reflexivity.
Defined.

Lemma second_run_creates_nothing_witness :
  all_returned (log (run Pg.handle script Pg.fresh)) = true /\
  creations (log (run Pg.handle script
                      (final (run Pg.handle script Pg.fresh)))) = 0.
Proof.
  split; [reflexivity |].
  apply (@second_run_creates_nothing _ Pg.handle Pg.has_db pg_honours
                                     Pg.fresh).
  reflexivity.
Defined.

Section Messages.
Variable W : Type.
Variable h : op -> W -> result * W.

(** The hint about the docker container is printed exactly when a call
    of the connecting [try] block raised an [Exception]; a failure of a
    later call never prints it. *)
Theorem hint_iff_connect_failure :
  forall (w : W),
    In msg_tip (stdout (run h script w)) <->
    exists o e,
      In (o, Err e) (log (run h script w)) /\
      connect_phase o = true /\
      is_Exception e = true.
Proof.
  intros w.
  exec_as res h script w; split.
  all: try solve [ intros Hin; in_cases Hin ].
  all: try solve [ intros _; in_list ].
  all: try solve [ intros _; do 2 eexists; split;
                   [in_list | split; [reflexivity | assumption]] ].
  all: intros (o & e' & Hin & Hphase & Hexn); in_cases Hin;
    first [discriminate Hphase | congruence].
Qed.

(** The success line is printed exactly when the creation statement was
    sent and returned. *)
Theorem created_message_iff_creation_returned :
  forall (w : W),
    In msg_created (stdout (run h script w)) <->
    exists cur v, In (Execute cur create_sql, Ok v) (log (run h script w)).
Proof.
  intros w.
  exec_as res h script w; split.
  all: try solve [ intros Hin; in_cases Hin ].
  all: try solve [ intros _; in_list ].
  all: try solve [ intros _; do 2 eexists; in_list ].
  all: intros (c & u & Hin); in_cases Hin.
Qed.
End Messages.

Lemma hint_iff_connect_failure_witness :
  In msg_tip (stdout (run Pg.handle script server_down)).
Proof.
  apply (proj2 (@hint_iff_connect_failure _ Pg.handle server_down)).
  exists connect_op, (Psycopg2Error "connection to server failed").
  split; [vm_compute; tauto | split; reflexivity].
Defined.

Lemma created_message_iff_creation_returned_witness :
  In msg_created (stdout (run Pg.handle script Pg.fresh)).
Proof.
  apply (proj2 (@created_message_iff_creation_returned _ Pg.handle Pg.fresh)).
  exists Pg.the_cursor, PNone. vm_compute; tauto.
Defined.

Lemma calls_follow_protocol_witness :
  exists conn cur,
    nth_error (log (run Pg.handle script Pg.fresh)) 4 =
      Some (connect_op, Ok conn) /\
    nth_error (log (run Pg.handle script Pg.fresh)) 6 =
      Some (Cursor conn, Ok cur) /\
    nth_error (log (run Pg.handle script Pg.fresh)) 8 =
      Some (Fetchone cur, Ok PNone).
Proof.
  destruct (@calls_follow_protocol _ Pg.handle Pg.fresh)
    as (conn & cur & creates & _ & H5 & H7 & H9).
  exists conn, cur.
  assert (L5 : 5 < List.length (log (run Pg.handle script Pg.fresh)))
    by (vm_compute; lia).
  assert (L7 : 7 < List.length (log (run Pg.handle script Pg.fresh)))
    by (vm_compute; lia).
  assert (L9 : 9 < List.length (log (run Pg.handle script Pg.fresh)))
    by (vm_compute; lia).
  split; [exact (H5 L5) |]. split; [exact (H7 L7) |].
  destruct (H9 L9) as (v & Hv & _).
  assert (E : Some (Fetchone cur, Ok v) =
              nth_error (log (run Pg.handle script Pg.fresh)) 8)
    by (symmetry; exact Hv).
  vm_compute in E. injection E as _ ->. exact Hv.
Defined.
